(** * plot.py: prompt / nonprompt muon selection and the pt histogram

    A shallow embedding of [plot.py], lines 11 to 26 (lines 1 to 10 are
    the imports and three constants).  The script is a straight line of
    module-level statements: it opens an HDF5 reader, loads up to
    100000 muons, wraps them in a [pandas] frame, selects the rows with
    [iffClass == 4] and the rows with [iffClass != 4], draws one
    histogram of [pt] for each selection and saves the figure.

    What is modelled concretely and what is left abstract:
    - the module globals, the file system and Python exceptions are
      explicit (a state-and-error monad);
    - the [pandas] operations the script applies (frame construction,
      column access, comparison of a column with an integer, indexing by
      a boolean series) are functions on lists of labelled rows;
    - [ftag.hdf5.H5Reader], the binning done by [Axes.hist] and the
      image encoder are parameters of the development: their code is not
      part of the script, and every theorem about the script holds
      whatever they compute. *)

From Stdlib Require Import ZArith List Floats.SpecFloat Strings.Byte.
From stdpp Require Import base option list strings gmap.

Local Open Scope string_scope.
Local Open Scope list_scope.

(** ** Exceptions *)

Inductive exn : Type :=
| FileNotFoundError (path : string)
| KeyError (key : string)
| ValueError (msg : string)
| IndexingError
| NameError (name : string)
| TypeError (msg : string).

(** A computation that either raises or returns. *)
Definition Result (A : Type) : Type := exn + A.

Definition rbind {A B : Type} (c : Result A) (k : A -> Result B) : Result B :=
  match c with
  | inl e => inl e
  | inr a => k a
  end.

#[global] Instance Result_ret : MRet Result := fun A a => inr a.
#[global] Instance Result_bind : MBind Result := fun A B k c => rbind c k.

(** ** Cell values

    The fields of the structured array are numeric: integers of some
    width, or binary64 floats.  A float may be NaN, which is how a
    missing value appears in a numeric column. *)

Inductive scalar : Type :=
| SInt (z : Z)
| SFloat (f : spec_float).

Definition is_nan (x : scalar) : bool :=
  match x with
  | SFloat S754_nan => true
  | _ => false
  end.

(** A Python integer literal promoted to binary64 for a comparison with
    a float column. *)
Definition float_of_int (k : Z) : spec_float :=
  binary_normalize 53 1024 k 0 false.

(** [x == k] for a cell [x] and an integer literal [k]. *)
Definition scalar_eq (x : scalar) (k : Z) : bool :=
  match x with
  | SInt z => Z.eqb z k
  | SFloat f => SFeqb f (float_of_int k)
  end.

(** [x != k]: numpy's [not_equal] is the negation of [equal], also on
    NaN, where [==] is false and [!=] is true. *)
Definition scalar_ne (x : scalar) (k : Z) : bool :=
  negb (scalar_eq x k).

(** ** Rows, series and frames *)

Record row : Type := mkRow {
  pt : scalar;
  eta : scalar;
  phi : scalar;
  iffClass : scalar
}.

(** Line 8--10: [fname], [obj], [columns]. *)
Definition fname : string := "maya.h5".
Definition obj : string := "muons".
Definition columns : list string := ["pt"; "eta"; "phi"; "iffClass"].

(** The accessor of a named column, when the frame has it. *)
Definition field (c : string) : option (row -> scalar) :=
  if String.eqb c "pt" then Some pt
  else if String.eqb c "eta" then Some eta
  else if String.eqb c "phi" then Some phi
  else if String.eqb c "iffClass" then Some iffClass
  else None.

(** A series and a frame carry the index label of each entry. *)
Definition Series (A : Type) : Type := list (nat * A).
Definition DataFrame : Type := list (nat * row).

Definition index {A : Type} (s : list (nat * A)) : list nat := map fst s.

(** Line 13: [pd.DataFrame(data, columns=columns)] labels the records
    0, 1, 2, ... in order.  A [row] has the four requested columns and
    no other, so the [columns] argument selects all of it. *)
Definition pd_DataFrame (data : list row) : DataFrame :=
  imap (fun i r => (i, r)) data.

(** [df[c]]: the column as a series; [KeyError] for an unknown name. *)
Definition getitem_col (d : DataFrame) (c : string) : Result (Series scalar) :=
  match field c with
  | Some get => inr (map (fun ir => (fst ir, get (snd ir))) d)
  | None => inl (KeyError c)
  end.

(** [s == k] and [s != k], element by element, keeping the index. *)
Definition series_eq (s : Series scalar) (k : Z) : Series bool :=
  map (fun ix => (fst ix, scalar_eq (snd ix) k)) s.

Definition series_ne (s : Series scalar) (k : Z) : Series bool :=
  map (fun ix => (fst ix, scalar_ne (snd ix) k)) s.

(** [df[mask]] for a boolean series [mask] carrying the index of [df]:
    the rows whose mask entry is true, with their labels.  The script
    only builds masks from a column of the same frame; a mask with
    another index is rejected here. *)
Fixpoint getitem_mask (d : DataFrame) (m : Series bool) : Result DataFrame :=
  match d, m with
  | [], [] => inr []
  | (i, r) :: d', (j, b) :: m' =>
      if Nat.eqb i j then
        match getitem_mask d' m' with
        | inr rest => inr (if b then (i, r) :: rest else rest)
        | inl e => inl e
        end
      else inl IndexingError
  | _, _ => inl IndexingError
  end.

(** Line 16: [df[df['iffClass'] == 4]]. *)
Definition select_prompt (df : DataFrame) : Result DataFrame :=
  s ← getitem_col df "iffClass"; getitem_mask df (series_eq s 4).

(** Line 17: [df[df['iffClass'] != 4]]. *)
Definition select_nonprompt (df : DataFrame) : Result DataFrame :=
  s ← getitem_col df "iffClass"; getitem_mask df (series_ne s 4).

(** The rows of a frame kept by a predicate on the label: what the two
    selections are shown to compute. *)
Definition rows_where (p : scalar -> bool) (d : DataFrame) : DataFrame :=
  List.filter (fun ir => p (iffClass (snd ir))) d.

(** ** The objects the script holds *)

(** [H5Reader(fname, jets_name=..., batch_size=...)]: the arguments the
    handle is built from. *)
Record H5Reader : Type := mkReader {
  reader_fname : string;
  jets_name : string;
  batch_size : N
}.

(** What [numpy.histogram] hands back: counts and bin edges. *)
Record Histogram : Type := mkHistogram {
  counts : list nat;
  bin_edges : list spec_float
}.

(** One [ax.hist] call drawn on the axes. *)
Record Patches : Type := mkPatches {
  patch_hist : Histogram;
  patch_alpha : spec_float;
  patch_label : string
}.

(** The single axes of the figure made by [plt.subplots()]. *)
Record Axes : Type := mkAxes {
  patches : list Patches;
  xlabel : string;
  ylabel : string;
  legend_loc : option string
}.

Definition empty_axes : Axes :=
  {| patches := []; xlabel := ""; ylabel := ""; legend_loc := None |}.

(** A value bound to a module global.  [fig] and [ax] denote the one
    figure held by [pyplot]; they are references, not copies. *)
Inductive value : Type :=
| VReader (r : H5Reader)
| VArray (a : list row)
| VFrame (d : DataFrame)
| VFigure
| VAxes.

(** The state the script runs in: its globals, the current figure of
    [pyplot], and the files on disk. *)
Record State : Type := mkState {
  globals : gmap string value;
  figure : option Axes;
  files : gmap string (list byte)
}.

Definition set_globals (f : gmap string value -> gmap string value) (s : State) : State :=
  {| globals := f (globals s); figure := figure s; files := files s |}.

Definition set_figure (a : Axes) (s : State) : State :=
  {| globals := globals s; figure := Some a; files := files s |}.

Definition set_files (f : gmap string (list byte) -> gmap string (list byte)) (s : State) : State :=
  {| globals := globals s; figure := figure s; files := f (files s) |}.

(** ** Statements: state and exceptions *)

Definition M (A : Type) : Type := State -> Result A * State.

#[global] Instance M_ret : MRet M := fun A a s => (inr a, s).

#[global] Instance M_bind : MBind M := fun A B k c s =>
  match c s with
  | (inl e, s') => (inl e, s')
  | (inr a, s') => k a s'
  end.

(** A pure computation that may raise. *)
Definition lift {A : Type} (c : Result A) : M A := fun s => (c, s).

(** Reading and binding a global. *)
Definition name (x : string) : M value := fun s =>
  match globals s !! x with
  | Some v => (inr v, s)
  | None => (inl (NameError x), s)
  end.

Definition assign (x : string) (v : value) : M unit := fun s =>
  (inr tt, set_globals (insert x v) s).

Definition as_reader (v : value) : Result H5Reader :=
  match v with VReader r => inr r | _ => inl (TypeError "load") end.

Definition as_array (v : value) : Result (list row) :=
  match v with VArray a => inr a | _ => inl (TypeError "DataFrame") end.

Definition as_frame (v : value) : Result DataFrame :=
  match v with VFrame d => inr d | _ => inl (TypeError "__getitem__") end.

Definition as_axes (v : value) : Result unit :=
  match v with VAxes => inr tt | _ => inl (TypeError "hist") end.

Definition as_figure (v : value) : Result unit :=
  match v with VFigure => inr tt | _ => inl (TypeError "savefig") end.

(** [d[k]] on a dict. *)
Definition dict_getitem {A : Type} (d : gmap string A) (k : string) : Result A :=
  match d !! k with
  | Some a => inr a
  | None => inl (KeyError k)
  end.

Definition values {A : Type} (s : Series A) : list A := map snd s.

(** [alpha=0.5] as a binary64. *)
Definition alpha_half : spec_float := S754_finite false 4503599627370496 (-53).

(** Every PNG file starts with these eight bytes. *)
Definition png_signature : list byte := [x89; x50; x4e; x47; x0d; x0a; x1a; x0a].

(** ** A concrete library, for running the script

    A reader that serves the first [n] of three muons from any file, a
    histogram that puts everything in one bin, and an encoder with an
    empty body. *)

Definition three_muons : list row :=
  [ mkRow (SInt 10) (SInt 0) (SInt 0) (SInt 4);
    mkRow (SInt 20) (SInt 0) (SInt 1) (SFloat S754_nan);
    mkRow (SInt 30) (SInt 1) (SInt 0) (SInt 6) ].

Definition two_muons : list row :=
  [ mkRow (SInt 10) (SInt 0) (SInt 0) (SInt 4);
    mkRow (SInt 30) (SInt 1) (SInt 0) (SInt 6) ].

(** Ten rows with the labels 4, 4, 4, 5, 5, 6, 6, 6, 6, 6. *)
Definition ten_muons : list row :=
  map (fun z => mkRow (SInt 25) (SInt 0) (SInt 0) (SInt z))
      [4; 4; 4; 5; 5; 6; 6; 6; 6; 6]%Z.

Definition init_ok (fs : gmap string (list byte)) (r : H5Reader) : option exn := None.

Definition load_three (fs : gmap string (list byte)) (r : H5Reader)
    (variables : gmap string (list string)) (num_jets : N)
  : Result (gmap string (list row)) :=
  inr ((fun _ => take (N.to_nat num_jets) three_muons) <$> variables).

Definition init_missing (fs : gmap string (list byte)) (r : H5Reader) : option exn :=
  match fs !! reader_fname r with
  | Some _ => None
  | None => Some (FileNotFoundError (reader_fname r))
  end.

Definition one_bin (x : list scalar) (bins : nat) : Result Histogram :=
  inr {| counts := length x :: replicate (pred bins) 0%nat; bin_edges := [] |}.

Definition no_body (a : Axes) : list byte := [].

Definition fresh_state (fs : gmap string (list byte)) : State :=
  {| globals := ∅; figure := None; files := fs |}.

(** A disk that already has a [pt.png] and one other file. *)
Definition stale_disk : gmap string (list byte) :=
  <["pt.png" := [x00]]> (<["notes.txt" := [x68; x69]]> ∅).

(** Two states that agree on [df] and on nothing else. *)
Definition state_a : State :=
  {| globals := <["df" := VFrame (pd_DataFrame three_muons)]> ∅;
     figure := None; files := ∅ |}.

Definition state_b : State :=
  {| globals := <["df" := VFrame (pd_DataFrame three_muons)]>
                  (<["obj_prompt" := VFigure]> ∅);
     figure := Some empty_axes; files := stale_disk |}.

(** A reader that serves the first [n] of the given rows. *)
Definition load_rows (rows : list row) (fs : gmap string (list byte)) (r : H5Reader)
    (variables : gmap string (list string)) (num_jets : N)
  : Result (gmap string (list row)) :=
  inr ((fun _ => take (N.to_nat num_jets) rows) <$> variables).

(** A binning that refuses a NaN, as a range cannot be derived from
    it, and otherwise puts everything in one bin. *)
Definition bins_reject_nan (x : list scalar) (bins : nat) : Result Histogram :=
  if existsb is_nan x then inl (ValueError "range is not finite")
  else one_bin x bins.

(** Muons whose only nonprompt row has a NaN [pt]. *)
Definition nan_pt_muons : list row :=
  [ mkRow (SInt 10) (SInt 0) (SInt 0) (SInt 4);
    mkRow (SFloat S754_nan) (SInt 0) (SInt 1) (SInt 6) ].

(** The labels of [two_muons] on other kinematics. *)
Definition two_other_muons : list row :=
  [ mkRow (SInt 55) (SInt 2) (SInt 1) (SInt 4);
    mkRow (SFloat S754_nan) (SInt 0) (SInt 3) (SInt 6) ].

(** What [one_bin] returns for [n] values and 100 bins. *)
Definition one_bin_of (n : nat) : Histogram :=
  {| counts := n :: replicate 99 0%nat; bin_edges := [] |}.

(** The figure the script has drawn when both binnings returned. *)
Definition final_axes (h1 h2 : Histogram) : Axes :=
  {| patches := [mkPatches h1 alpha_half "prompt"; mkPatches h2 alpha_half "nonprompt"];
     xlabel := "pt"; ylabel := "Frequency"; legend_loc := Some "upper right" |}.

(** A statement that binds no global outside [xs], whether it raises or
    returns. *)
Definition binds_within {A : Type} (xs : list string) (c : M A) : Prop :=
  forall s x, x ∉ xs -> globals (snd (c s)) !! x = globals s !! x.

(** ** The script *)

Section Script.

(** The library calls the script makes.  [H5Reader_init] is the check
    done when the handle is built ([None]: built), [H5Reader_load] the
    bounded read; both only read the files.  [np_histogram] is the
    binning behind [Axes.hist], [print_png] the image body written
    after the signature. *)
Variable H5Reader_init : gmap string (list byte) -> H5Reader -> option exn.
Variable H5Reader_load :
  gmap string (list byte) -> H5Reader -> gmap string (list string) -> N ->
  Result (gmap string (list row)).
Variable np_histogram : list scalar -> nat -> Result Histogram.
Variable print_png : Axes -> list byte.

Definition new_H5Reader (f j : string) (b : N) : M H5Reader := fun s =>
  let r := mkReader f j b in
  match H5Reader_init (files s) r with
  | Some e => (inl e, s)
  | None => (inr r, s)
  end.

Definition load (r : H5Reader) (variables : gmap string (list string)) (num_jets : N)
  : M (gmap string (list row)) := fun s =>
  (H5Reader_load (files s) r variables num_jets, s).

(** [plt.subplots()]: a new figure with one empty axes, now current. *)
Definition plt_subplots : M (value * value) := fun s =>
  (inr (VFigure, VAxes), set_figure empty_axes s).

(** The axes [ax] and [plt] act on; [pyplot] makes one if there is
    none. *)
Definition gca (s : State) : Axes := default empty_axes (figure s).

(** [ax.hist(x, bins=..., alpha=..., label=...)]. *)
Definition Axes_hist (x : list scalar) (bins : nat) (alpha : spec_float) (label : string)
  : M unit := fun s =>
  match np_histogram x bins with
  | inl e => (inl e, s)
  | inr h =>
      let a := gca s in
      (inr tt,
       set_figure {| patches := patches a ++ [mkPatches h alpha label];
                     xlabel := xlabel a; ylabel := ylabel a;
                     legend_loc := legend_loc a |} s)
  end.

Definition plt_xlabel (l : string) : M unit := fun s =>
  let a := gca s in
  (inr tt, set_figure {| patches := patches a; xlabel := l; ylabel := ylabel a;
                         legend_loc := legend_loc a |} s).

Definition plt_ylabel (l : string) : M unit := fun s =>
  let a := gca s in
  (inr tt, set_figure {| patches := patches a; xlabel := xlabel a; ylabel := l;
                         legend_loc := legend_loc a |} s).

Definition Axes_legend (loc : string) : M unit := fun s =>
  let a := gca s in
  (inr tt, set_figure {| patches := patches a; xlabel := xlabel a; ylabel := ylabel a;
                         legend_loc := Some loc |} s).

(** [fig.savefig(path)]: the file at [path] becomes the encoded
    figure, whatever was there.  The disk is a plain map from paths to
    contents: a write that fails (permissions, a full disk) is not
    modelled. *)
Definition Figure_savefig (path : string) : M unit := fun s =>
  (inr tt, set_files (insert path (png_signature ++ print_png (gca s))) s).

(** Line 11. *)
Definition line11 : M unit :=
  r ← new_H5Reader fname obj 1000;
  assign "reader" (VReader r).

(** Line 12. *)
Definition line12 : M unit :=
  v ← name "reader";
  r ← lift (as_reader v);
  d ← load r {[ obj := columns ]} 100000;
  a ← lift (dict_getitem d obj);
  assign "data" (VArray a).

(** Line 13. *)
Definition line13 : M unit :=
  v ← name "data";
  a ← lift (as_array v);
  assign "df" (VFrame (pd_DataFrame a)).

(** Line 16. *)
Definition line16 : M unit :=
  v ← name "df";
  d ← lift (as_frame v);
  p ← lift (select_prompt d);
  assign "obj_prompt" (VFrame p).

(** Line 17. *)
Definition line17 : M unit :=
  v ← name "df";
  d ← lift (as_frame v);
  n ← lift (select_nonprompt d);
  assign "obj_nonprompt" (VFrame n).

(** Line 20. *)
Definition line20 : M unit :=
  fa ← plt_subplots;
  assign "fig" (fst fa);;
  assign "ax" (snd fa).

(** Lines 21 and 22. *)
Definition hist_of (var label : string) : M unit :=
  a ← name "ax";
  lift (as_axes a);;
  v ← name var;
  d ← lift (as_frame v);
  x ← lift (getitem_col d "pt");
  Axes_hist (values x) 100 alpha_half label.

Definition line21 : M unit := hist_of "obj_prompt" "prompt".
Definition line22 : M unit := hist_of "obj_nonprompt" "nonprompt".

(** Lines 23 to 25. *)
Definition line23 : M unit := plt_xlabel "pt".
Definition line24 : M unit := plt_ylabel "Frequency".
Definition line25 : M unit :=
  a ← name "ax";
  lift (as_axes a);;
  Axes_legend "upper right".

(** Line 26. *)
Definition line26 : M unit :=
  f ← name "fig";
  lift (as_figure f);;
  Figure_savefig "pt.png".

(** The reader: lines 11 to 13. *)
Definition reader_part : M unit := line11;; line12;; line13.

(** The selector: lines 16 and 17. *)
Definition selector : M unit := line16;; line17.

(** The renderer up to the write: lines 20 to 25. *)
Definition draw : M unit := line20;; line21;; line22;; line23;; line24;; line25.

(** Lines 11 to 26, the statements of the script.  Lines 1 to 7 import
    the libraries and lines 8 to 10 bind [fname], [obj] and [columns],
    the constants above; they are not statements of the model, and the
    names they bind are not in its globals. *)
Definition main : M unit := reader_part;; selector;; draw;; line26.

(** The handle line 11 builds and the request line 12 makes. *)
Definition the_reader : H5Reader := mkReader fname obj 1000.
Definition the_request : gmap string (list string) := {[ obj := columns ]}.

(** The reader raises [e]: when the handle is built, during the
    bounded read, or because the collection is not in what the read
    returned. *)
Definition reader_raises (fs : gmap string (list byte)) (e : exn) : Prop :=
  H5Reader_init fs the_reader = Some e \/
  (H5Reader_init fs the_reader = None /\
   (H5Reader_load fs the_reader the_request 100000 = inl e \/
    exists d, H5Reader_load fs the_reader the_request 100000 = inr d /\
              d !! obj = None /\ e = KeyError obj)).

(** A statement that leaves the files alone, whether it raises or
    returns. *)
Definition keeps_files {A : Type} (c : M A) : Prop :=
  forall s, files (snd (c s)) = files s.


(** ** The selections as filters *)

Lemma getitem_mask_column (p : scalar -> bool) (d : DataFrame) :
  getitem_mask d (map (fun ir => (fst ir, p (iffClass (snd ir)))) d)
  = inr (rows_where p d).
Proof.
  induction d as [|[i r] d IH]; simpl; [reflexivity|].
  rewrite Nat.eqb_refl, IH. unfold rows_where; simpl.
  destruct (p (iffClass r)); reflexivity.
Qed.

Lemma select_prompt_eq (df : DataFrame) :
  select_prompt df = inr (rows_where (fun x => scalar_eq x 4) df).
Proof.
  unfold select_prompt, getitem_col, series_eq; simpl.
  unfold mbind, Result_bind, rbind. rewrite map_map; simpl.
  apply (getitem_mask_column (fun x => scalar_eq x 4)).
Qed.

Lemma select_nonprompt_eq (df : DataFrame) :
  select_nonprompt df = inr (rows_where (fun x => scalar_ne x 4) df).
Proof.
  unfold select_nonprompt, getitem_col, series_ne; simpl.
  unfold mbind, Result_bind, rbind. rewrite map_map; simpl.
  apply (getitem_mask_column (fun x => scalar_ne x 4)).
Qed.

Lemma rows_where_split (p : scalar -> bool) (d : DataFrame) :
  (length (rows_where p d) + length (rows_where (fun x => negb (p x)) d)
   = length d)%nat.
Proof.
  unfold rows_where. induction d as [|[i r] d IH]; simpl; [reflexivity|].
  destruct (p (iffClass r)); simpl; lia.
Qed.

Lemma elem_of_rows_where (p : scalar -> bool) (d : DataFrame) (ir : nat * row) :
  ir ∈ rows_where p d <-> ir ∈ d /\ p (iffClass (snd ir)) = true.
Proof.
  unfold rows_where. rewrite !list_elem_of_In. apply filter_In.
Qed.

Lemma length_pd_DataFrame (data : list row) :
  length (pd_DataFrame data) = length data.
Proof. apply length_imap. Qed.

Lemma elem_of_pd_DataFrame (data : list row) (i : nat) (r : row) :
  (i, r) ∈ pd_DataFrame data <-> data !! i = Some r.
Proof.
  unfold pd_DataFrame. rewrite elem_of_lookup_imap. split.
  - intros (j & y & Heq & Hy). inversion Heq; subst. exact Hy.
  - intros H. exists i, r. split; [reflexivity | exact H].
Qed.

Lemma nan_ne_int (x : scalar) (k : Z) :
  is_nan x = true -> scalar_eq x k = false /\ scalar_ne x k = true.
Proof.
  unfold scalar_ne. destruct x as [z|[]]; simpl; try discriminate.
  intros _. split; reflexivity.
Qed.

Lemma float_of_int_4 : float_of_int 4 = S754_finite false 4503599627370496 (-50).
Proof. vm_compute. reflexivity. Qed.

Lemma SFeqb_finite_inv (f : spec_float) (m : positive) (e : Z) :
  SFeqb f (S754_finite false m e) = true -> f = S754_finite false m e.
Proof.
  unfold SFeqb, SFcompare.
  destruct f as [s|s| |s m' e']; try (destruct s); try discriminate.
  destruct (Z.compare_spec e' e) as [->|_|_]; try discriminate.
  destruct (Pos.compare_cont Eq m' m) eqn:Hm; try discriminate.
  intros _. apply Pos.compare_eq in Hm. subst m'. reflexivity.
Qed.

Lemma SFeqb_finite_refl (m : positive) (e : Z) :
  SFeqb (S754_finite false m e) (S754_finite false m e) = true.
Proof.
  unfold SFeqb, SFcompare. rewrite Z.compare_refl.
  change (Pos.compare_cont Eq m m) with (Pos.compare m m).
  rewrite Pos.compare_refl. reflexivity.
Qed.

(** On a float column, [== 4] holds of the binary64 4.0 and of nothing
    else. *)
Lemma scalar_eq_float_4 (f : spec_float) :
  scalar_eq (SFloat f) 4 = true <-> f = float_of_int 4.
Proof.
  unfold scalar_eq. rewrite float_of_int_4. split.
  - apply SFeqb_finite_inv.
  - intros ->. apply SFeqb_finite_refl.
Qed.

Lemma snd_imap_label {A : Type} (g : nat -> nat) (l : list A) :
  map snd (imap (fun i r => (g i, r)) l) = l.
Proof.
  revert g. induction l as [|x l IH]; intros g; simpl; [reflexivity|].
  f_equal. apply (IH (fun i => g (S i))).
Qed.

Lemma labels_pd_DataFrame (data : list row) :
  map (fun ir => iffClass (snd ir)) (pd_DataFrame data) = map iffClass data.
Proof.
  rewrite <- (map_map snd iffClass). unfold pd_DataFrame.
  rewrite (snd_imap_label (fun i => i)). reflexivity.
Qed.

Lemma rows_where_length (p : scalar -> bool) (d : DataFrame) :
  length (rows_where p d)
  = length (List.filter p (map (fun ir => iffClass (snd ir)) d)).
Proof.
  unfold rows_where. induction d as [|[i r] d IH]; simpl; [reflexivity|].
  destruct (p (iffClass r)); simpl; rewrite IH; reflexivity.
Qed.

(** ** The selector: lines 16 and 17 *)

(** C1: for a loaded table whose [iffClass] column has no missing
    value, both selections return, and the number of prompt rows plus
    the number of nonprompt rows is the number of rows of the table. *)
Theorem selection_partitions_rows (data : list row) :
  Forall (fun r => is_nan (iffClass r) = false) data ->
  exists prompt nonprompt : DataFrame,
    select_prompt (pd_DataFrame data) = inr prompt /\
    select_nonprompt (pd_DataFrame data) = inr nonprompt /\
    (length prompt + length nonprompt = length (pd_DataFrame data))%nat.
Proof.
  intros _.
  exists (rows_where (fun x => scalar_eq x 4) (pd_DataFrame data)),
         (rows_where (fun x => scalar_ne x 4) (pd_DataFrame data)).
  split; [apply select_prompt_eq|].
  split; [apply select_nonprompt_eq|].
  apply (rows_where_split (fun x => scalar_eq x 4)).
Qed.

(** C2: the two selections of a loaded table are disjoint: no labelled
    row is in both, no index label is in both, and no label value
    passes both tests. *)
Theorem selections_disjoint (data : list row) :
  exists prompt nonprompt : DataFrame,
    select_prompt (pd_DataFrame data) = inr prompt /\
    select_nonprompt (pd_DataFrame data) = inr nonprompt /\
    (forall ir, ir ∈ prompt -> ir ∉ nonprompt) /\
    (forall i, i ∈ index prompt -> i ∉ index nonprompt) /\
    (forall x, scalar_eq x 4 = true -> scalar_ne x 4 = true -> False).
Proof.
  exists (rows_where (fun x => scalar_eq x 4) (pd_DataFrame data)),
         (rows_where (fun x => scalar_ne x 4) (pd_DataFrame data)).
  split; [apply select_prompt_eq|].
  split; [apply select_nonprompt_eq|].
  assert (Hex : forall x, scalar_eq x 4 = true -> scalar_ne x 4 = true -> False).
  { intros x Heq. unfold scalar_ne. rewrite Heq. discriminate. }
  split; [|split; [|exact Hex]].
  - intros ir [_ Hp]%elem_of_rows_where [_ Hn]%elem_of_rows_where.
    exact (Hex _ Hp Hn).
  - unfold index. intros i Hp Hn.
    apply list_elem_of_fmap in Hp as ([i1 r1] & Hi1 & Hp).
    apply list_elem_of_fmap in Hn as ([i2 r2] & Hi2 & Hn).
    simpl in Hi1, Hi2. subst i1 i2.
    apply elem_of_rows_where in Hp as [Hp1 Hp2].
    apply elem_of_rows_where in Hn as [Hn1 Hn2].
    apply elem_of_pd_DataFrame in Hp1. apply elem_of_pd_DataFrame in Hn1.
    assert (r1 = r2) by congruence. subst r2.
    exact (Hex _ Hp2 Hn2).
Qed.

(** C9: a table of ten rows whose [iffClass] column is
    4, 4, 4, 5, 5, 6, 6, 6, 6, 6 has three prompt rows and seven
    nonprompt rows. *)
Theorem synthetic_table_counts (data : list row) :
  map iffClass data = map SInt [4; 4; 4; 5; 5; 6; 6; 6; 6; 6]%Z ->
  exists prompt nonprompt : DataFrame,
    select_prompt (pd_DataFrame data) = inr prompt /\
    select_nonprompt (pd_DataFrame data) = inr nonprompt /\
    length (pd_DataFrame data) = 10%nat /\
    length prompt = 3%nat /\ length nonprompt = 7%nat.
Proof.
  intros Hcol.
  exists (rows_where (fun x => scalar_eq x 4) (pd_DataFrame data)),
         (rows_where (fun x => scalar_ne x 4) (pd_DataFrame data)).
  split; [apply select_prompt_eq|].
  split; [apply select_nonprompt_eq|].
  rewrite !rows_where_length, labels_pd_DataFrame, Hcol, length_pd_DataFrame.
  rewrite <- (length_map iffClass), Hcol.
  repeat split.
Qed.

(** C10: a row whose [iffClass] is NaN is not selected as prompt and is
    selected as nonprompt, and the two selections together have as
    many rows as the table, missing values or not. *)
Theorem missing_label_is_nonprompt (df : DataFrame) :
  exists prompt nonprompt : DataFrame,
    select_prompt df = inr prompt /\
    select_nonprompt df = inr nonprompt /\
    (forall ir, ir ∈ df -> is_nan (iffClass (snd ir)) = true ->
                (ir ∉ prompt) /\ (ir ∈ nonprompt)) /\
    (length prompt + length nonprompt = length df)%nat.
Proof.
  exists (rows_where (fun x => scalar_eq x 4) df),
         (rows_where (fun x => scalar_ne x 4) df).
  split; [apply select_prompt_eq|].
  split; [apply select_nonprompt_eq|].
  split; [|apply (rows_where_split (fun x => scalar_eq x 4))].
  intros ir Hin Hnan. apply (nan_ne_int _ 4) in Hnan as [Heq Hne]. split.
  - intros [_ Hp]%elem_of_rows_where. congruence.
  - apply elem_of_rows_where. split; assumption.
Qed.

(** ** Running statements *)

Lemma bind_returns {A B : Type} (c : M A) (k : A -> M B) (s s' : State) (b : B) :
  (c ≫= k) s = (inr b, s') ->
  exists a s1, c s = (inr a, s1) /\ k a s1 = (inr b, s').
Proof.
  unfold mbind, M_bind. destruct (c s) as [[e|a] s1]; [discriminate|].
  intros H. exists a, s1. split; [reflexivity | exact H].
Qed.

Lemma bind_raises {A B : Type} (c : M A) (k : A -> M B) (s s' : State) (e : exn) :
  c s = (inl e, s') -> (c ≫= k) s = (inl e, s').
Proof. unfold mbind, M_bind. intros ->. reflexivity. Qed.

Lemma bind_step {A B : Type} (c : M A) (k : A -> M B) (s s' : State) (a : A) :
  c s = (inr a, s') -> (c ≫= k) s = k a s'.
Proof. unfold mbind, M_bind. intros ->. reflexivity. Qed.

Lemma keeps_files_bind {A B : Type} (c : M A) (k : A -> M B) :
  keeps_files c -> (forall a, keeps_files (k a)) -> keeps_files (c ≫= k).
Proof.
  intros Hc Hk s. unfold mbind, M_bind.
  specialize (Hc s). destruct (c s) as [[e|a] s1]; simpl in *; [exact Hc|].
  rewrite (Hk a s1). exact Hc.
Qed.

Lemma keeps_files_lift {A : Type} (c : Result A) : keeps_files (lift c).
Proof. intros s. reflexivity. Qed.

Lemma keeps_files_name (x : string) : keeps_files (name x).
Proof. intros s. unfold name. destruct (globals s !! x); reflexivity. Qed.

Lemma keeps_files_assign (x : string) (v : value) : keeps_files (assign x v).
Proof. intros s. reflexivity. Qed.

Lemma keeps_files_new_H5Reader (f j : string) (b : N) :
  keeps_files (new_H5Reader f j b).
Proof.
  intros s. unfold new_H5Reader. destruct (H5Reader_init _ _); reflexivity.
Qed.

Lemma keeps_files_load (r : H5Reader) (v : gmap string (list string)) (n : N) :
  keeps_files (load r v n).
Proof. intros s. reflexivity. Qed.

Lemma keeps_files_Axes_hist (x : list scalar) (bins : nat) (a : spec_float) (l : string) :
  keeps_files (Axes_hist x bins a l).
Proof.
  intros s. unfold Axes_hist. destruct (np_histogram x bins); reflexivity.
Qed.

Create HintDb frame.
Hint Resolve keeps_files_lift keeps_files_name keeps_files_assign
  keeps_files_new_H5Reader keeps_files_load keeps_files_Axes_hist : frame.

Ltac frame :=
  repeat (first [ apply keeps_files_bind; [|intros ?]
                | solve [auto with frame]
                | intros ?; reflexivity ]).

Lemma keeps_files_reader_part : keeps_files reader_part.
Proof. unfold reader_part, line11, line12, line13. frame. Qed.

Lemma keeps_files_selector : keeps_files selector.
Proof. unfold selector, line16, line17. frame. Qed.

Lemma keeps_files_draw : keeps_files draw.
Proof.
  unfold draw, line20, line21, line22, line23, line24, line25, hist_of. frame.
Qed.

(** What the selector leaves in the globals. *)
Lemma selector_runs (s : State) (d : DataFrame) :
  globals s !! "df" = Some (VFrame d) ->
  selector s =
    (inr tt,
     set_globals
       (fun g => <["obj_nonprompt" := VFrame (rows_where (fun x => scalar_ne x 4) d)]>
                   (<["obj_prompt" := VFrame (rows_where (fun x => scalar_eq x 4) d)]> g))
       s).
Proof.
  intros Hdf. unfold selector, line16, line17.
  unfold mbind at 1, M_bind at 1.
  assert (H16 : (v ← name "df"; d0 ← lift (as_frame v); p ← lift (select_prompt d0);
                 assign "obj_prompt" (VFrame p)) s
                = (inr tt, set_globals
                     (insert "obj_prompt" (VFrame (rows_where (fun x => scalar_eq x 4) d))) s)).
  { unfold mbind, M_bind, name, lift, assign. rewrite Hdf. simpl.
    rewrite select_prompt_eq. reflexivity. }
  rewrite H16.
  unfold mbind, M_bind, name, lift, assign. simpl.
  rewrite lookup_insert_ne by discriminate. rewrite Hdf. simpl.
  rewrite select_nonprompt_eq. reflexivity.
Qed.

(** C6: the selector is deterministic and has no side effect.  Run in
    any two states that hold the same table in [df], it returns in
    both, binds [obj_prompt] and [obj_nonprompt] to the same two
    tables, and changes nothing else: [df] still holds the table, every
    other global, the figure and the files are as before. *)
Theorem selector_pure_deterministic (s1 s2 : State) (d : DataFrame) :
  globals s1 !! "df" = Some (VFrame d) ->
  globals s2 !! "df" = Some (VFrame d) ->
  exists prompt nonprompt : DataFrame,
    (forall s, s = s1 \/ s = s2 ->
       fst (selector s) = inr tt /\
       globals (snd (selector s)) !! "obj_prompt" = Some (VFrame prompt) /\
       globals (snd (selector s)) !! "obj_nonprompt" = Some (VFrame nonprompt) /\
       globals (snd (selector s)) !! "df" = Some (VFrame d) /\
       (forall x, x <> "obj_prompt" -> x <> "obj_nonprompt" ->
                  globals (snd (selector s)) !! x = globals s !! x) /\
       figure (snd (selector s)) = figure s /\
       files (snd (selector s)) = files s) /\
    select_prompt d = inr prompt /\
    select_nonprompt d = inr nonprompt.
Proof.
  intros H1 H2.
  exists (rows_where (fun x => scalar_eq x 4) d),
         (rows_where (fun x => scalar_ne x 4) d).
  split; [|split; [apply select_prompt_eq | apply select_nonprompt_eq]].
  intros s Hs.
  assert (Hdf : globals s !! "df" = Some (VFrame d)) by (destruct Hs; subst; assumption).
  rewrite (selector_runs s d Hdf). simpl.
  repeat split.
  - rewrite lookup_insert_ne by discriminate. apply lookup_insert_eq.
  - apply lookup_insert_eq.
  - rewrite !lookup_insert_ne by discriminate. exact Hdf.
  - intros x Hp Hn. rewrite !lookup_insert_ne by congruence. reflexivity.
Qed.

(** ** The reader: lines 11 to 13 *)

Lemma line11_raises (s : State) (e : exn) :
  H5Reader_init (files s) the_reader = Some e -> line11 s = (inl e, s).
Proof.
  intros H. unfold line11, mbind, M_bind, new_H5Reader.
  fold the_reader. rewrite H. reflexivity.
Qed.

Lemma line11_returns (s : State) :
  H5Reader_init (files s) the_reader = None ->
  line11 s = (inr tt, set_globals (insert "reader" (VReader the_reader)) s).
Proof.
  intros H. unfold line11, mbind, M_bind, new_H5Reader.
  fold the_reader. rewrite H. reflexivity.
Qed.

Lemma line12_after_line11 (s : State) :
  line12 (set_globals (insert "reader" (VReader the_reader)) s)
  = match H5Reader_load (files s) the_reader the_request 100000 with
    | inl e => (inl e, set_globals (insert "reader" (VReader the_reader)) s)
    | inr d =>
        match d !! obj with
        | None => (inl (KeyError obj), set_globals (insert "reader" (VReader the_reader)) s)
        | Some a =>
            (inr tt,
             set_globals (insert "data" (VArray a))
               (set_globals (insert "reader" (VReader the_reader)) s))
        end
    end.
Proof.
  unfold line12, mbind, M_bind, name, lift, load, assign, dict_getitem.
  fold the_request.
  cbn [globals set_globals files]. rewrite lookup_insert_eq.
  cbn [as_reader globals set_globals files].
  destruct (H5Reader_load (files s) the_reader the_request 100000) as [e|d];
    [reflexivity|].
  destruct (d !! obj); reflexivity.
Qed.

Lemma reader_part_raises (s : State) (e : exn) :
  reader_raises (files s) e ->
  exists s', reader_part s = (inl e, s') /\
             files s' = files s /\ figure s' = figure s.
Proof.
  intros [Hinit | [Hinit Hload]]; unfold reader_part.
  - exists s. split; [|split; reflexivity].
    apply bind_raises, line11_raises, Hinit.
  - exists (set_globals (insert "reader" (VReader the_reader)) s).
    split; [|split; reflexivity].
    rewrite (bind_step _ _ _ _ _ (line11_returns s Hinit)).
    apply bind_raises. rewrite line12_after_line11.
    destruct Hload as [-> | (d & -> & Hd & ->)]; [reflexivity|].
    rewrite Hd. reflexivity.
Qed.

(** X16: when the reader raises -- as the handle is built, during the
    bounded read, or at the lookup of the collection in what was read --
    the script ends with that same exception: nothing catches it, no
    later statement runs, no figure is made and no file is written.
    Which conditions make the reader raise is the library's matter and
    is not stated here. *)
Theorem reader_error_propagates (s : State) (e : exn) :
  reader_raises (files s) e ->
  fst (main s) = inl e /\
  files (snd (main s)) = files s /\
  figure (snd (main s)) = figure s.
Proof.
  intros H. destruct (reader_part_raises s e H) as (s' & Hrun & Hfiles & Hfig).
  unfold main. rewrite (bind_raises _ _ _ _ _ Hrun). simpl.
  repeat split; assumption.
Qed.

(** ** The script returns when the library calls do

    None of the script's own steps (name lookups, attribute calls,
    column access, the two selections) raises: once the reader has
    delivered the collection and the binning returns on the two [pt]
    columns, the script runs to its end. *)

Lemma getitem_col_pt (d : DataFrame) :
  getitem_col d "pt" = inr (map (fun ir => (fst ir, pt (snd ir))) d).
Proof. reflexivity. Qed.

Lemma reader_part_returns (s : State) (d : gmap string (list row)) (a : list row) :
  H5Reader_init (files s) the_reader = None ->
  H5Reader_load (files s) the_reader the_request 100000 = inr d ->
  d !! obj = Some a ->
  exists s', reader_part s = (inr tt, s') /\
             globals s' !! "df" = Some (VFrame (pd_DataFrame a)).
Proof.
  intros Hinit Hload Hobj. unfold reader_part.
  rewrite (bind_step _ _ _ _ _ (line11_returns s Hinit)).
  rewrite (bind_step line12 _ _
             (set_globals (insert "data" (VArray a))
                (set_globals (insert "reader" (VReader the_reader)) s)) tt)
    by (rewrite line12_after_line11, Hload, Hobj; reflexivity).
  unfold line13, mbind, M_bind, name, lift, assign.
  cbn [globals set_globals]. rewrite lookup_insert_eq. cbn [as_array].
  eexists. split; [reflexivity|].
  cbn [globals set_globals]. apply lookup_insert_eq.
Qed.

Lemma hist_of_returns (s : State) (var label : string) (d : DataFrame) (h : Histogram) :
  globals s !! "ax" = Some VAxes ->
  globals s !! var = Some (VFrame d) ->
  np_histogram (map (fun ir => pt (snd ir)) d) 100 = inr h ->
  exists s', hist_of var label s = (inr tt, s') /\ globals s' = globals s /\
    figure s' = Some {| patches := patches (gca s) ++ [mkPatches h alpha_half label];
                        xlabel := xlabel (gca s); ylabel := ylabel (gca s);
                        legend_loc := legend_loc (gca s) |}.
Proof.
  intros Hax Hvar Hh.
  unfold hist_of, mbind, M_bind, name, lift, Axes_hist.
  rewrite Hax. cbn [as_axes]. rewrite Hvar. cbn [as_frame].
  rewrite getitem_col_pt. unfold values. rewrite map_map. cbn [snd].
  rewrite Hh. eexists. split; [reflexivity|]. split; reflexivity.
Qed.

Lemma draw_returns (s : State) (p n : DataFrame) (h1 h2 : Histogram) :
  globals s !! "obj_prompt" = Some (VFrame p) ->
  globals s !! "obj_nonprompt" = Some (VFrame n) ->
  np_histogram (map (fun ir => pt (snd ir)) p) 100 = inr h1 ->
  np_histogram (map (fun ir => pt (snd ir)) n) 100 = inr h2 ->
  exists s', draw s = (inr tt, s') /\ globals s' !! "fig" = Some VFigure /\
    figure s' = Some {| patches := [mkPatches h1 alpha_half "prompt";
                                    mkPatches h2 alpha_half "nonprompt"];
                        xlabel := "pt"; ylabel := "Frequency";
                        legend_loc := Some "upper right" |}.
Proof.
  intros Hp Hn Hh1 Hh2. unfold draw.
  assert (H20 : line20 s
                = (inr tt, set_globals (insert "ax" VAxes)
                             (set_globals (insert "fig" VFigure)
                                (set_figure empty_axes s)))) by reflexivity.
  rewrite (bind_step _ _ _ _ _ H20).
  set (s3 := set_globals (insert "ax" VAxes) _).
  assert (Hax : globals s3 !! "ax" = Some VAxes)
    by (subst s3; cbn [globals set_globals]; apply lookup_insert_eq).
  assert (Hfig : globals s3 !! "fig" = Some VFigure).
  { subst s3. cbn [globals set_globals set_figure].
    rewrite lookup_insert_ne by discriminate. apply lookup_insert_eq. }
  assert (Hp3 : globals s3 !! "obj_prompt" = Some (VFrame p)).
  { subst s3. cbn [globals set_globals set_figure].
    rewrite !lookup_insert_ne by discriminate. exact Hp. }
  assert (Hn3 : globals s3 !! "obj_nonprompt" = Some (VFrame n)).
  { subst s3. cbn [globals set_globals set_figure].
    rewrite !lookup_insert_ne by discriminate. exact Hn. }
  assert (F3 : figure s3 = Some empty_axes) by reflexivity.
  clearbody s3.
  destruct (hist_of_returns s3 "obj_prompt" "prompt" _ h1 Hax Hp3 Hh1)
    as (s4 & H21 & G4 & F4).
  unfold line21. rewrite (bind_step _ _ _ _ _ H21).
  rewrite <- G4 in Hax, Hn3, Hfig.
  destruct (hist_of_returns s4 "obj_nonprompt" "nonprompt" _ h2 Hax Hn3 Hh2)
    as (s5 & H22 & G5 & F5).
  unfold line22. rewrite (bind_step _ _ _ _ _ H22).
  rewrite <- G5 in Hax, Hfig.
  unfold gca in F4, F5. rewrite F3 in F4. rewrite F4 in F5. simpl in F5.
  unfold line23, line24, line25, mbind, M_bind, plt_xlabel, plt_ylabel,
    name, lift, Axes_legend.
  cbn [globals set_figure]. rewrite Hax. cbn [as_axes globals set_figure].
  eexists. split; [reflexivity|]. split; [exact Hfig|].
  unfold gca. cbn [figure set_figure]. rewrite F5. reflexivity.
Qed.

Lemma main_returns (s : State) (d : gmap string (list row)) (a : list row)
      (h1 h2 : Histogram) :
  H5Reader_init (files s) the_reader = None ->
  H5Reader_load (files s) the_reader the_request 100000 = inr d ->
  d !! obj = Some a ->
  np_histogram
    (map (fun ir => pt (snd ir)) (rows_where (fun x => scalar_eq x 4) (pd_DataFrame a)))
    100 = inr h1 ->
  np_histogram
    (map (fun ir => pt (snd ir)) (rows_where (fun x => scalar_ne x 4) (pd_DataFrame a)))
    100 = inr h2 ->
  fst (main s) = inr tt.
Proof.
  intros Hinit Hload Hobj Hh1 Hh2. unfold main.
  destruct (reader_part_returns s d a Hinit Hload Hobj) as (s1 & Hr & Hdf).
  rewrite (bind_step _ _ _ _ _ Hr).
  rewrite (bind_step _ _ _ _ _ (selector_runs s1 _ Hdf)).
  set (s2 := set_globals _ s1).
  assert (Hp : globals s2 !! "obj_prompt"
               = Some (VFrame (rows_where (fun x => scalar_eq x 4) (pd_DataFrame a)))).
  { subst s2. cbn [globals set_globals].
    rewrite lookup_insert_ne by discriminate. apply lookup_insert_eq. }
  assert (Hn : globals s2 !! "obj_nonprompt"
               = Some (VFrame (rows_where (fun x => scalar_ne x 4) (pd_DataFrame a))))
    by (subst s2; cbn [globals set_globals]; apply lookup_insert_eq).
  destruct (draw_returns s2 _ _ h1 h2 Hp Hn Hh1 Hh2) as (s3 & Hd & Hfig & _).
  rewrite (bind_step _ _ _ _ _ Hd).
  unfold line26, mbind, M_bind, name, lift, Figure_savefig.
  rewrite Hfig. reflexivity.
Qed.

(** ** The write: line 26 *)

Lemma line26_returns (s s' : State) :
  line26 s = (inr tt, s') ->
  s' = set_files (insert "pt.png" (png_signature ++ print_png (gca s))) s.
Proof.
  unfold line26, mbind, M_bind, name, lift, Figure_savefig.
  destruct (globals s !! "fig") as [v|]; [|discriminate].
  destruct (as_figure v); [discriminate|].
  intros H. inversion H. reflexivity.
Qed.

(** C8: a run that returns has written [pt.png] and nothing else: the
    files after the run are the files before it with [pt.png] set to
    the encoded figure, whatever was at that path; the content starts
    with the PNG signature, so it is not empty; every other path is as
    it was. *)
Theorem main_writes_only_pt_png (s s' : State) :
  main s = (inr tt, s') ->
  exists body : list byte,
    files s' = <["pt.png" := png_signature ++ body]> (files s) /\
    files s' !! "pt.png" = Some (png_signature ++ body) /\
    png_signature ++ body <> [] /\
    (forall path, path <> "pt.png" -> files s' !! path = files s !! path).
Proof.
  unfold main. intros H.
  apply bind_returns in H as ([] & s1 & H1 & H).
  apply bind_returns in H as ([] & s2 & H2 & H).
  apply bind_returns in H as ([] & s3 & H3 & H).
  apply line26_returns in H.
  assert (Hfs : files s3 = files s).
  { pose proof (keeps_files_draw s2) as F3. rewrite H3 in F3.
    pose proof (keeps_files_selector s1) as F2. rewrite H2 in F2.
    pose proof (keeps_files_reader_part s) as F1. rewrite H1 in F1.
    simpl in *. congruence. }
  exists (print_png (gca s3)). subst s'. cbn [files set_files]. rewrite Hfs.
  split; [reflexivity|]. split; [apply lookup_insert_eq|].
  split; [discriminate|].
  intros path Hne. apply lookup_insert_ne. congruence.
Qed.

(** ** More on the selector *)

Lemma filter_split_perm {A : Type} (f : A -> bool) (l : list A) :
  List.filter f l ++ List.filter (fun x => negb (f x)) l ≡ₚ l.
Proof.
  induction l as [|x l IH]; simpl; [reflexivity|].
  destruct (f x); simpl.
  - constructor. exact IH.
  - rewrite <- Permutation_middle. constructor. exact IH.
Qed.

Lemma filter_sublist {A : Type} (f : A -> bool) (l : list A) :
  sublist (List.filter f l) l.
Proof.
  induction l as [|x l IH]; simpl; [constructor|].
  destruct (f x); [apply sublist_skip | apply sublist_cons]; exact IH.
Qed.

Lemma filter_filter_same {A : Type} (f : A -> bool) (l : list A) :
  List.filter f (List.filter f l) = List.filter f l.
Proof.
  induction l as [|x l IH]; simpl; [reflexivity|].
  destruct (f x) eqn:E; simpl; [rewrite E, IH|]; auto.
Qed.

Lemma filter_filter_other {A : Type} (f g : A -> bool) (l : list A) :
  (forall x, f x = true -> g x = false) ->
  List.filter g (List.filter f l) = [].
Proof.
  intros H. induction l as [|x l IH]; simpl; [reflexivity|].
  destruct (f x) eqn:E; simpl; [rewrite (H x E)|]; exact IH.
Qed.

Lemma index_rows_where_labels (p : scalar -> bool) (g : nat -> nat) (d1 d2 : list row) :
  map iffClass d1 = map iffClass d2 ->
  index (rows_where p (imap (fun i r => (g i, r)) d1))
  = index (rows_where p (imap (fun i r => (g i, r)) d2)).
Proof.
  revert g d2. induction d1 as [|r1 d1 IH]; intros g [|r2 d2] H;
    try discriminate; [reflexivity|].
  simpl in H. injection H as Hr Hd.
  unfold rows_where, index in *. simpl. rewrite Hr.
  specialize (IH (fun i => g (S i)) d2 Hd). unfold compose.
  destruct (p (iffClass r2)); simpl; [f_equal|]; exact IH.
Qed.

Lemma index_pd_DataFrame (data : list row) :
  index (pd_DataFrame data) = seq 0 (length data).
Proof.
  unfold index, pd_DataFrame.
  assert (G : forall (g : nat -> nat) (l : list row),
             map fst (imap (fun i r => (g i, r)) l) = map g (seq 0 (length l))).
  { intros g l. revert g. induction l as [|x l IH]; intros g; simpl; [reflexivity|].
    f_equal. rewrite <- seq_shift, map_map. apply (IH (fun i => g (S i))). }
  rewrite (G (fun i => i)). apply map_id.
Qed.

Lemma filter_nil_iff {A : Type} (f : A -> bool) (l : list A) :
  List.filter f l = [] <-> Forall (fun x => f x = false) l.
Proof.
  induction l as [|x l IH]; simpl; [split; [constructor | reflexivity]|].
  destruct (f x) eqn:E; split; intros H.
  - discriminate.
  - inversion H; congruence.
  - constructor; [exact E | apply IH, H].
  - apply IH. inversion H; assumption.
Qed.

Lemma filter_all {A : Type} (f : A -> bool) (l : list A) :
  Forall (fun x => f x = true) l -> List.filter f l = l.
Proof.
  induction 1 as [|x l Hx _ IH]; simpl; [reflexivity|]. rewrite Hx, IH. reflexivity.
Qed.

(** X1: the two selections together are the table: the prompt rows
    followed by the nonprompt rows are a permutation of the rows of the
    table, each with its label. *)
Theorem selections_permute_table (df : DataFrame) :
  exists prompt nonprompt : DataFrame,
    select_prompt df = inr prompt /\
    select_nonprompt df = inr nonprompt /\
    prompt ++ nonprompt ≡ₚ df.
Proof.
  exists (rows_where (fun x => scalar_eq x 4) df),
         (rows_where (fun x => scalar_ne x 4) df).
  split; [apply select_prompt_eq|].
  split; [apply select_nonprompt_eq|].
  apply (filter_split_perm (fun ir => scalar_eq (iffClass (snd ir)) 4)).
Qed.

(** X2: a labelled row is selected as prompt exactly when it is a row of
    the table whose label passes [== 4], and as nonprompt exactly when
    it is a row of the table whose label fails it. *)
Theorem selection_membership (df : DataFrame) :
  exists prompt nonprompt : DataFrame,
    select_prompt df = inr prompt /\
    select_nonprompt df = inr nonprompt /\
    forall ir : nat * row,
      (ir ∈ prompt <-> ir ∈ df /\ scalar_eq (iffClass (snd ir)) 4 = true) /\
      (ir ∈ nonprompt <-> ir ∈ df /\ scalar_eq (iffClass (snd ir)) 4 = false).
Proof.
  exists (rows_where (fun x => scalar_eq x 4) df),
         (rows_where (fun x => scalar_ne x 4) df).
  split; [apply select_prompt_eq|].
  split; [apply select_nonprompt_eq|].
  intros ir. rewrite !elem_of_rows_where. unfold scalar_ne.
  rewrite negb_true_iff. split; reflexivity.
Qed.

(** X3: the selections do not reorder or relabel: each is a sublist of
    the loaded table, its index is an increasing part of 0, ..., n-1
    (not renumbered), and the label of a selected row is still its
    position in the loaded data. *)
Theorem selections_keep_order_and_labels (data : list row) :
  exists prompt nonprompt : DataFrame,
    select_prompt (pd_DataFrame data) = inr prompt /\
    select_nonprompt (pd_DataFrame data) = inr nonprompt /\
    sublist prompt (pd_DataFrame data) /\
    sublist nonprompt (pd_DataFrame data) /\
    sublist (index prompt) (seq 0 (length data)) /\
    sublist (index nonprompt) (seq 0 (length data)) /\
    (forall i r, (i, r) ∈ prompt ++ nonprompt -> data !! i = Some r).
Proof.
  exists (rows_where (fun x => scalar_eq x 4) (pd_DataFrame data)),
         (rows_where (fun x => scalar_ne x 4) (pd_DataFrame data)).
  split; [apply select_prompt_eq|].
  split; [apply select_nonprompt_eq|].
  split; [apply filter_sublist|]. split; [apply filter_sublist|].
  rewrite <- (index_pd_DataFrame data).
  split; [apply (fmap_sublist fst), filter_sublist|].
  split; [apply (fmap_sublist fst), filter_sublist|].
  intros i r [H|H]%elem_of_app;
    apply elem_of_rows_where in H as [H _];
    apply elem_of_pd_DataFrame; exact H.
Qed.

(** X4: selecting again changes nothing: the prompt selection of the
    prompt rows is the prompt rows and their nonprompt selection is
    empty, and the same with the roles exchanged. *)
Theorem selection_idempotent (df : DataFrame) :
  exists prompt nonprompt : DataFrame,
    select_prompt df = inr prompt /\
    select_nonprompt df = inr nonprompt /\
    select_prompt prompt = inr prompt /\
    select_nonprompt prompt = inr [] /\
    select_nonprompt nonprompt = inr nonprompt /\
    select_prompt nonprompt = inr [].
Proof.
  exists (rows_where (fun x => scalar_eq x 4) df),
         (rows_where (fun x => scalar_ne x 4) df).
  rewrite !select_prompt_eq, !select_nonprompt_eq. unfold rows_where.
  rewrite !filter_filter_same.
  rewrite (filter_filter_other (fun ir => scalar_eq (iffClass (snd ir)) 4)
             (fun ir => scalar_ne (iffClass (snd ir)) 4))
    by (intros x Hx; unfold scalar_ne; rewrite Hx; reflexivity).
  rewrite (filter_filter_other (fun ir => scalar_ne (iffClass (snd ir)) 4)
             (fun ir => scalar_eq (iffClass (snd ir)) 4))
    by (intros x Hx; unfold scalar_ne in Hx; apply negb_true_iff in Hx; exact Hx).
  repeat split.
Qed.

(** X5: the selector reads no column but [iffClass]: two loaded tables
    with the same [iffClass] column have the same index labels in their
    prompt selections and in their nonprompt selections. *)
Theorem selection_reads_label_only (data1 data2 : list row) :
  map iffClass data1 = map iffClass data2 ->
  exists p1 n1 p2 n2 : DataFrame,
    select_prompt (pd_DataFrame data1) = inr p1 /\
    select_nonprompt (pd_DataFrame data1) = inr n1 /\
    select_prompt (pd_DataFrame data2) = inr p2 /\
    select_nonprompt (pd_DataFrame data2) = inr n2 /\
    index p1 = index p2 /\ index n1 = index n2.
Proof.
  intros H.
  exists (rows_where (fun x => scalar_eq x 4) (pd_DataFrame data1)),
         (rows_where (fun x => scalar_ne x 4) (pd_DataFrame data1)),
         (rows_where (fun x => scalar_eq x 4) (pd_DataFrame data2)),
         (rows_where (fun x => scalar_ne x 4) (pd_DataFrame data2)).
  rewrite !select_prompt_eq, !select_nonprompt_eq.
  repeat split; apply (index_rows_where_labels _ (fun i => i)); exact H.
Qed.

(** X12: every loaded [pt] is histogrammed once: the [pt] values of the
    prompt rows (line 21) and of the nonprompt rows (line 22) are
    together a permutation of the [pt] column of the table. *)
Theorem pt_values_split (df : DataFrame) :
  exists (prompt nonprompt : DataFrame) (x xp xn : Series scalar),
    select_prompt df = inr prompt /\
    select_nonprompt df = inr nonprompt /\
    getitem_col df "pt" = inr x /\
    getitem_col prompt "pt" = inr xp /\
    getitem_col nonprompt "pt" = inr xn /\
    values xp ++ values xn ≡ₚ values x.
Proof.
  exists (rows_where (fun x => scalar_eq x 4) df),
         (rows_where (fun x => scalar_ne x 4) df).
  do 3 eexists.
  split; [apply select_prompt_eq|].
  split; [apply select_nonprompt_eq|].
  rewrite !getitem_col_pt. do 3 (split; [reflexivity|]).
  unfold values. rewrite !map_map. simpl. rewrite <- map_app.
  apply Permutation_map.
  apply (filter_split_perm (fun ir => scalar_eq (iffClass (snd ir)) 4)).
Qed.

(** X14: the empty selections.  The prompt selection is empty exactly
    when no label of the table passes [== 4] -- an empty table
    included -- and then the nonprompt selection is the whole table,
    unchanged; the nonprompt selection is empty exactly when every
    label passes, and then the prompt selection is the whole table. *)
Theorem selection_empty_cases (df : DataFrame) :
  exists prompt nonprompt : DataFrame,
    select_prompt df = inr prompt /\
    select_nonprompt df = inr nonprompt /\
    (prompt = [] <-> Forall (fun ir => scalar_eq (iffClass (snd ir)) 4 = false) df) /\
    (nonprompt = [] <-> Forall (fun ir => scalar_eq (iffClass (snd ir)) 4 = true) df) /\
    (prompt = [] -> nonprompt = df) /\
    (nonprompt = [] -> prompt = df).
Proof.
  exists (rows_where (fun x => scalar_eq x 4) df),
         (rows_where (fun x => scalar_ne x 4) df).
  split; [apply select_prompt_eq|].
  split; [apply select_nonprompt_eq|].
  unfold rows_where, scalar_ne.
  assert (Hn : List.filter (fun ir => negb (scalar_eq (iffClass (snd ir)) 4)) df = []
               <-> Forall (fun ir => scalar_eq (iffClass (snd ir)) 4 = true) df).
  { rewrite filter_nil_iff. apply Forall_iff. intros ir. apply negb_false_iff. }
  split; [apply filter_nil_iff|]. split; [exact Hn|]. split.
  - intros H%filter_nil_iff. apply filter_all.
    eapply Forall_impl; [exact H|]. intros ir E. simpl in E. rewrite E. reflexivity.
  - intros H%Hn. apply filter_all. exact H.
Qed.

(** ** More on lines 11 to 26 *)

Lemma binds_within_bind {A B : Type} (xs : list string) (c : M A) (k : A -> M B) :
  binds_within xs c -> (forall a, binds_within xs (k a)) -> binds_within xs (c ≫= k).
Proof.
  intros Hc Hk s x Hx. unfold mbind, M_bind.
  specialize (Hc s x Hx). destruct (c s) as [[e|a] s1]; simpl in *; [exact Hc|].
  rewrite (Hk a s1 x Hx). exact Hc.
Qed.

Lemma binds_within_assign (xs : list string) (x : string) (v : value) :
  x ∈ xs -> binds_within xs (assign x v).
Proof.
  intros Hin s y Hy. unfold assign. cbn [snd globals set_globals].
  apply lookup_insert_ne. intros ->. exact (Hy Hin).
Qed.

Lemma binds_within_lift {A : Type} (xs : list string) (c : Result A) :
  binds_within xs (lift c).
Proof. intros s x _. reflexivity. Qed.

Lemma binds_within_name (xs : list string) (x : string) : binds_within xs (name x).
Proof. intros s y _. unfold name. destruct (globals s !! x); reflexivity. Qed.

Lemma binds_within_new_H5Reader (xs : list string) (f j : string) (b : N) :
  binds_within xs (new_H5Reader f j b).
Proof.
  intros s x _. unfold new_H5Reader. destruct (H5Reader_init _ _); reflexivity.
Qed.

Lemma binds_within_load (xs : list string) (r : H5Reader)
      (v : gmap string (list string)) (n : N) :
  binds_within xs (load r v n).
Proof. intros s x _. reflexivity. Qed.

Lemma binds_within_plt_subplots (xs : list string) : binds_within xs plt_subplots.
Proof. intros s x _. reflexivity. Qed.

Lemma binds_within_Axes_hist (xs : list string) (x : list scalar) (bins : nat)
      (a : spec_float) (l : string) :
  binds_within xs (Axes_hist x bins a l).
Proof.
  intros s y _. unfold Axes_hist. destruct (np_histogram x bins); reflexivity.
Qed.

Lemma binds_within_plt_xlabel (xs : list string) (l : string) :
  binds_within xs (plt_xlabel l).
Proof. intros s x _. reflexivity. Qed.

Lemma binds_within_plt_ylabel (xs : list string) (l : string) :
  binds_within xs (plt_ylabel l).
Proof. intros s x _. reflexivity. Qed.

Lemma binds_within_Axes_legend (xs : list string) (l : string) :
  binds_within xs (Axes_legend l).
Proof. intros s x _. reflexivity. Qed.

Lemma binds_within_Figure_savefig (xs : list string) (path : string) :
  binds_within xs (Figure_savefig path).
Proof. intros s x _. reflexivity. Qed.

Create HintDb binds.
Hint Resolve binds_within_lift binds_within_name binds_within_new_H5Reader
  binds_within_load binds_within_plt_subplots binds_within_Axes_hist
  binds_within_plt_xlabel binds_within_plt_ylabel binds_within_Axes_legend
  binds_within_Figure_savefig : binds.

Ltac names :=
  let H := fresh "Hy" in
  intros H;
  repeat (apply elem_of_cons in H as [H|H]; [discriminate|]);
  apply elem_of_nil in H; contradiction.

Ltac binds :=
  repeat (first [ apply binds_within_bind; [|intros ?]
                | apply binds_within_assign; set_solver
                | solve [auto with binds] ]).

Lemma draw_binds_fig_ax : binds_within ["fig"; "ax"] draw.
Proof.
  unfold draw, line20, line21, line22, line23, line24, line25, hist_of.
  apply binds_within_bind; [|intros ?; binds].
  apply binds_within_bind; [binds | intros [f a]].
  intros s x Hx. unfold mbind, M_bind, assign. cbn [snd globals set_globals].
  rewrite !lookup_insert_ne by set_solver. reflexivity.
Qed.

Lemma line26_raise_keeps_files (s : State) (e : exn) :
  fst (line26 s) = inl e -> files (snd (line26 s)) = files s.
Proof.
  unfold line26, mbind, M_bind, name, lift, Figure_savefig.
  destruct (globals s !! "fig") as [v|]; [|reflexivity].
  destruct (as_figure v); [reflexivity | discriminate].
Qed.

Lemma bind_raise_keeps_files {A B : Type} (c : M A) (k : A -> M B) :
  keeps_files c ->
  (forall a s1 e, fst (k a s1) = inl e -> files (snd (k a s1)) = files s1) ->
  forall s e, fst ((c ≫= k) s) = inl e -> files (snd ((c ≫= k) s)) = files s.
Proof.
  intros Hc Hk s e. unfold mbind, M_bind.
  specialize (Hc s). destruct (c s) as [[e'|a] s1]; simpl in *; [intros _; exact Hc|].
  intros H. rewrite (Hk a s1 e H). exact Hc.
Qed.

Lemma main_raise_keeps_files (s : State) (e : exn) :
  fst (main s) = inl e -> files (snd (main s)) = files s.
Proof.
  unfold main. revert s e.
  apply bind_raise_keeps_files; [apply keeps_files_reader_part|]. intros _.
  apply bind_raise_keeps_files; [apply keeps_files_selector|]. intros _.
  apply bind_raise_keeps_files; [apply keeps_files_draw|]. intros _.
  apply line26_raise_keeps_files.
Qed.

Lemma bind_assoc_run {A B C : Type} (c : M A) (k1 : A -> M B) (k2 : B -> M C) (s : State) :
  ((c ≫= k1) ≫= k2) s = (c ≫= (fun a => k1 a ≫= k2)) s.
Proof.
  unfold mbind, M_bind. destruct (c s) as [[e|a] s1]; reflexivity.
Qed.

Lemma bind_ext_run {A B : Type} (c : M A) (k k' : A -> M B) (s : State) :
  (forall a s1, k a s1 = k' a s1) -> (c ≫= k) s = (c ≫= k') s.
Proof.
  intros H. unfold mbind, M_bind. destruct (c s) as [[e|a] s1]; [reflexivity | apply H].
Qed.

(** X9: the write is the last statement.  When lines 11 to 25 end with
    an exception, whichever of them raised it, the script ends with
    that exception and the files are as they were before the run, a
    [pt.png] of an earlier run included.  (A failure of the write of
    line 26 itself is not covered.) *)
Theorem failure_before_savefig_writes_nothing (s : State) (e : exn) :
  fst ((reader_part;; selector;; draw) s) = inl e ->
  fst (main s) = inl e /\ files (snd (main s)) = files s.
Proof.
  intros H.
  assert (Hmain : main s = ((reader_part;; selector;; draw) ≫= fun _ => line26) s).
  { unfold main. rewrite bind_assoc_run. apply bind_ext_run. intros _ s1.
    rewrite bind_assoc_run. reflexivity. }
  assert (Hk : keeps_files (reader_part;; selector;; draw)).
  { apply keeps_files_bind; [apply keeps_files_reader_part | intros _].
    apply keeps_files_bind; [apply keeps_files_selector | intros _].
    apply keeps_files_draw. }
  specialize (Hk s).
  destruct ((reader_part;; selector;; draw) s) as [[e'|[]] s'] eqn:E;
    simpl in H, Hk; [|discriminate].
  injection H as ->.
  rewrite Hmain, (bind_raises _ _ _ _ _ E). simpl.
  split; [reflexivity | exact Hk].
Qed.

Lemma hist_of_raises (s : State) (var label : string) (d : DataFrame) (e : exn) :
  globals s !! "ax" = Some VAxes ->
  globals s !! var = Some (VFrame d) ->
  np_histogram (map (fun ir => pt (snd ir)) d) 100 = inl e ->
  hist_of var label s = (inl e, s).
Proof.
  intros Hax Hvar Hh.
  unfold hist_of, mbind, M_bind, name, lift, Axes_hist.
  rewrite Hax. cbn [as_axes]. rewrite Hvar. cbn [as_frame].
  rewrite getitem_col_pt. unfold values. rewrite map_map. cbn [snd].
  rewrite Hh. reflexivity.
Qed.

Lemma draw_raises (s : State) (p n : DataFrame) (e : exn) :
  globals s !! "obj_prompt" = Some (VFrame p) ->
  globals s !! "obj_nonprompt" = Some (VFrame n) ->
  np_histogram (map (fun ir => pt (snd ir)) p) 100 = inl e \/
  (exists h1, np_histogram (map (fun ir => pt (snd ir)) p) 100 = inr h1 /\
              np_histogram (map (fun ir => pt (snd ir)) n) 100 = inl e) ->
  exists s', draw s = (inl e, s').
Proof.
  intros Hp Hn Hh. unfold draw.
  assert (H20 : line20 s
                = (inr tt, set_globals (insert "ax" VAxes)
                             (set_globals (insert "fig" VFigure)
                                (set_figure empty_axes s)))) by reflexivity.
  rewrite (bind_step _ _ _ _ _ H20).
  set (s3 := set_globals (insert "ax" VAxes) _).
  assert (Hax : globals s3 !! "ax" = Some VAxes)
    by (subst s3; cbn [globals set_globals]; apply lookup_insert_eq).
  assert (Hp3 : globals s3 !! "obj_prompt" = Some (VFrame p)).
  { subst s3. cbn [globals set_globals set_figure].
    rewrite !lookup_insert_ne by discriminate. exact Hp. }
  assert (Hn3 : globals s3 !! "obj_nonprompt" = Some (VFrame n)).
  { subst s3. cbn [globals set_globals set_figure].
    rewrite !lookup_insert_ne by discriminate. exact Hn. }
  clearbody s3. unfold line21.
  destruct Hh as [Hh1 | (h1 & Hh1 & Hh2)].
  - exists s3. apply bind_raises.
    apply (hist_of_raises s3 "obj_prompt" "prompt" p e Hax Hp3 Hh1).
  - destruct (hist_of_returns s3 "obj_prompt" "prompt" _ h1 Hax Hp3 Hh1)
      as (s4 & H21 & G4 & _).
    rewrite (bind_step _ _ _ _ _ H21). rewrite <- G4 in Hax, Hn3.
    exists s4. apply bind_raises. unfold line22.
    apply (hist_of_raises s4 "obj_nonprompt" "nonprompt" n e Hax Hn3 Hh2).
Qed.

(** X10: an exception of the binning, on the [pt] of the prompt rows or,
    when that call returned, on the [pt] of the nonprompt rows, is the
    exception the script ends with, and no file is written. *)
Theorem histogram_error_propagates (s : State) (d : gmap string (list row))
        (a : list row) (e : exn) :
  H5Reader_init (files s) the_reader = None ->
  H5Reader_load (files s) the_reader the_request 100000 = inr d ->
  d !! obj = Some a ->
  np_histogram
    (map (fun ir => pt (snd ir)) (rows_where (fun x => scalar_eq x 4) (pd_DataFrame a)))
    100 = inl e \/
  (exists h1,
     np_histogram
       (map (fun ir => pt (snd ir)) (rows_where (fun x => scalar_eq x 4) (pd_DataFrame a)))
       100 = inr h1 /\
     np_histogram
       (map (fun ir => pt (snd ir)) (rows_where (fun x => scalar_ne x 4) (pd_DataFrame a)))
       100 = inl e) ->
  fst (main s) = inl e /\ files (snd (main s)) = files s.
Proof.
  intros Hinit Hload Hobj Hh.
  assert (Hmain : fst (main s) = inl e).
  { unfold main.
    destruct (reader_part_returns s d a Hinit Hload Hobj) as (s1 & Hr & Hdf).
    rewrite (bind_step _ _ _ _ _ Hr).
    rewrite (bind_step _ _ _ _ _ (selector_runs s1 _ Hdf)).
    set (s2 := set_globals _ s1).
    assert (Hp : globals s2 !! "obj_prompt"
                 = Some (VFrame (rows_where (fun x => scalar_eq x 4) (pd_DataFrame a)))).
    { subst s2. cbn [globals set_globals].
      rewrite lookup_insert_ne by discriminate. apply lookup_insert_eq. }
    assert (Hn : globals s2 !! "obj_nonprompt"
                 = Some (VFrame (rows_where (fun x => scalar_ne x 4) (pd_DataFrame a))))
      by (subst s2; cbn [globals set_globals]; apply lookup_insert_eq).
    destruct (draw_raises s2 _ _ e Hp Hn Hh) as (s3 & Hd).
    rewrite (bind_raises _ _ _ _ _ Hd). reflexivity. }
  split; [exact Hmain | exact (main_raise_keeps_files s e Hmain)].
Qed.

Lemma main_run_full (s : State) (d : gmap string (list row)) (a : list row)
        (h1 h2 : Histogram) :
  H5Reader_init (files s) the_reader = None ->
  H5Reader_load (files s) the_reader the_request 100000 = inr d ->
  d !! obj = Some a ->
  np_histogram
    (map (fun ir => pt (snd ir)) (rows_where (fun x => scalar_eq x 4) (pd_DataFrame a)))
    100 = inr h1 ->
  np_histogram
    (map (fun ir => pt (snd ir)) (rows_where (fun x => scalar_ne x 4) (pd_DataFrame a)))
    100 = inr h2 ->
  fst (main s) = inr tt /\
  figure (snd (main s)) = Some (final_axes h1 h2) /\
  files (snd (main s))
  = <["pt.png" := png_signature ++ print_png (final_axes h1 h2)]> (files s) /\
  globals (snd (main s)) !! "df" = Some (VFrame (pd_DataFrame a)).
Proof.
  intros Hinit Hload Hobj Hh1 Hh2. unfold main.
  destruct (reader_part_returns s d a Hinit Hload Hobj) as (s1 & Hr & Hdf).
  pose proof (keeps_files_reader_part s) as F1. rewrite Hr in F1.
  rewrite (bind_step _ _ _ _ _ Hr).
  pose proof (keeps_files_selector s1) as F2.
  rewrite (selector_runs s1 _ Hdf) in F2.
  rewrite (bind_step _ _ _ _ _ (selector_runs s1 _ Hdf)).
  set (s2 := set_globals _ s1) in *.
  assert (Hp : globals s2 !! "obj_prompt"
               = Some (VFrame (rows_where (fun x => scalar_eq x 4) (pd_DataFrame a)))).
  { subst s2. cbn [globals set_globals].
    rewrite lookup_insert_ne by discriminate. apply lookup_insert_eq. }
  assert (Hn : globals s2 !! "obj_nonprompt"
               = Some (VFrame (rows_where (fun x => scalar_ne x 4) (pd_DataFrame a))))
    by (subst s2; cbn [globals set_globals]; apply lookup_insert_eq).
  assert (Hdf2 : globals s2 !! "df" = Some (VFrame (pd_DataFrame a))).
  { subst s2. cbn [globals set_globals].
    rewrite !lookup_insert_ne by discriminate. exact Hdf. }
  destruct (draw_returns s2 _ _ h1 h2 Hp Hn Hh1 Hh2) as (s3 & Hd & Hfig & Hax).
  pose proof (keeps_files_draw s2) as F3. rewrite Hd in F3.
  pose proof (draw_binds_fig_ax s2 "df") as G3. rewrite Hd in G3.
  rewrite (bind_step _ _ _ _ _ Hd).
  unfold line26, mbind, M_bind, name, lift, Figure_savefig.
  rewrite Hfig. cbn [as_figure fst snd figure files globals set_files].
  unfold gca. rewrite Hax. cbn [default]. fold (final_axes h1 h2).
  simpl in F1, F2, F3, G3.
  repeat split.
  - f_equal. congruence.
  - rewrite G3 by names. exact Hdf2.
Qed.

(** X11: what a run produces when the library calls return: the script
    returns, the figure holds the histogram of the prompt [pt] and then
    the histogram of the nonprompt [pt], both asked with 100 bins and
    drawn with alpha 0.5, the axis labels and the legend, and [pt.png]
    is the encoding of exactly that figure. *)
Theorem main_result (s : State) (d : gmap string (list row)) (a : list row)
        (h1 h2 : Histogram) :
  H5Reader_init (files s) the_reader = None ->
  H5Reader_load (files s) the_reader the_request 100000 = inr d ->
  d !! obj = Some a ->
  np_histogram
    (map (fun ir => pt (snd ir)) (rows_where (fun x => scalar_eq x 4) (pd_DataFrame a)))
    100 = inr h1 ->
  np_histogram
    (map (fun ir => pt (snd ir)) (rows_where (fun x => scalar_ne x 4) (pd_DataFrame a)))
    100 = inr h2 ->
  fst (main s) = inr tt /\
  figure (snd (main s)) = Some (final_axes h1 h2) /\
  files (snd (main s))
  = <["pt.png" := png_signature ++ print_png (final_axes h1 h2)]> (files s) /\
  globals (snd (main s)) !! "df" = Some (VFrame (pd_DataFrame a)).
Proof. apply main_run_full. Qed.

End Script.

(** ** Concrete runs *)

Lemma selection_partitions_rows_witness :
  Forall (fun r => is_nan (iffClass r) = false) two_muons /\
  exists prompt nonprompt : DataFrame,
    select_prompt (pd_DataFrame two_muons) = inr prompt /\
    select_nonprompt (pd_DataFrame two_muons) = inr nonprompt /\
    (length prompt + length nonprompt = length (pd_DataFrame two_muons))%nat.
Proof.
  assert (H : Forall (fun r => is_nan (iffClass r) = false) two_muons)
    by (repeat constructor).
  split; [exact H | exact (selection_partitions_rows two_muons H)].
Defined.

Lemma synthetic_table_counts_witness :
  map iffClass ten_muons = map SInt [4; 4; 4; 5; 5; 6; 6; 6; 6; 6]%Z /\
  exists prompt nonprompt : DataFrame,
    select_prompt (pd_DataFrame ten_muons) = inr prompt /\
    select_nonprompt (pd_DataFrame ten_muons) = inr nonprompt /\
    length (pd_DataFrame ten_muons) = 10%nat /\
    length prompt = 3%nat /\ length nonprompt = 7%nat.
Proof.
  split; [reflexivity | exact (synthetic_table_counts ten_muons eq_refl)].
Defined.

Lemma selector_pure_deterministic_witness :
  globals state_a !! "df" = Some (VFrame (pd_DataFrame three_muons)) /\
  globals state_b !! "df" = Some (VFrame (pd_DataFrame three_muons)) /\
  exists prompt nonprompt : DataFrame,
    (forall s, s = state_a \/ s = state_b ->
       fst (selector s) = inr tt /\
       globals (snd (selector s)) !! "obj_prompt" = Some (VFrame prompt) /\
       globals (snd (selector s)) !! "obj_nonprompt" = Some (VFrame nonprompt) /\
       globals (snd (selector s)) !! "df" = Some (VFrame (pd_DataFrame three_muons)) /\
       (forall x, x <> "obj_prompt" -> x <> "obj_nonprompt" ->
                  globals (snd (selector s)) !! x = globals s !! x) /\
       figure (snd (selector s)) = figure s /\
       files (snd (selector s)) = files s) /\
    select_prompt (pd_DataFrame three_muons) = inr prompt /\
    select_nonprompt (pd_DataFrame three_muons) = inr nonprompt.
Proof.
  assert (Ha : globals state_a !! "df" = Some (VFrame (pd_DataFrame three_muons)))
    by (vm_compute; reflexivity).
  assert (Hb : globals state_b !! "df" = Some (VFrame (pd_DataFrame three_muons)))
    by (vm_compute; reflexivity).
  split; [exact Ha|]. split; [exact Hb|].
  exact (selector_pure_deterministic state_a state_b _ Ha Hb).
Defined.

Lemma reader_error_propagates_witness :
  reader_raises init_missing load_three (files (fresh_state stale_disk))
    (FileNotFoundError "maya.h5") /\
  fst (main init_missing load_three one_bin no_body (fresh_state stale_disk))
    = inl (FileNotFoundError "maya.h5") /\
  files (snd (main init_missing load_three one_bin no_body (fresh_state stale_disk)))
    = files (fresh_state stale_disk) /\
  figure (snd (main init_missing load_three one_bin no_body (fresh_state stale_disk)))
    = figure (fresh_state stale_disk).
Proof.
  assert (H : reader_raises init_missing load_three (files (fresh_state stale_disk))
                (FileNotFoundError "maya.h5"))
    by (left; vm_compute; reflexivity).
  split; [exact H|].
  exact (reader_error_propagates init_missing load_three one_bin no_body
           (fresh_state stale_disk) (FileNotFoundError "maya.h5") H).
Defined.

Lemma main_writes_only_pt_png_witness :
  main init_ok load_three one_bin no_body (fresh_state stale_disk)
  = (inr tt, snd (main init_ok load_three one_bin no_body (fresh_state stale_disk))) /\
  exists body : list byte,
    files (snd (main init_ok load_three one_bin no_body (fresh_state stale_disk)))
    = <["pt.png" := png_signature ++ body]> (files (fresh_state stale_disk)) /\
    files (snd (main init_ok load_three one_bin no_body (fresh_state stale_disk))) !! "pt.png"
    = Some (png_signature ++ body) /\
    png_signature ++ body <> [] /\
    (forall path, path <> "pt.png" ->
       files (snd (main init_ok load_three one_bin no_body (fresh_state stale_disk))) !! path
       = files (fresh_state stale_disk) !! path).
Proof.
  assert (H : main init_ok load_three one_bin no_body (fresh_state stale_disk)
              = (inr tt, snd (main init_ok load_three one_bin no_body
                                   (fresh_state stale_disk))))
    by (vm_compute; reflexivity).
  split; [exact H|].
  exact (main_writes_only_pt_png init_ok load_three one_bin no_body _ _ H).
Defined.

(** The two selections of three muons, one of them with a NaN label. *)
Example select_three_muons :
  select_prompt (pd_DataFrame three_muons)
  = inr [(0%nat, mkRow (SInt 10) (SInt 0) (SInt 0) (SInt 4))] /\
  select_nonprompt (pd_DataFrame three_muons)
  = inr [(1%nat, mkRow (SInt 20) (SInt 0) (SInt 1) (SFloat S754_nan));
         (2%nat, mkRow (SInt 30) (SInt 1) (SInt 0) (SInt 6))].
Proof. split; reflexivity. Qed.

(** A mask that does not carry the index of the frame is rejected. *)
Example getitem_mask_misaligned :
  getitem_mask (pd_DataFrame two_muons) [(0%nat, true)] = inl IndexingError.
Proof. reflexivity. Qed.

(** A whole run on the stale disk: [pt.png] is replaced, [notes.txt]
    stays. *)
Example main_on_stale_disk :
  fst (main init_ok load_three one_bin no_body (fresh_state stale_disk)) = inr tt /\
  files (snd (main init_ok load_three one_bin no_body (fresh_state stale_disk)))
  = <["pt.png" := png_signature]> stale_disk.
Proof. split; vm_compute; reflexivity. Qed.

(** With a reader that cannot find [maya.h5], the run stops at line 11
    and the disk is as it was. *)
Example main_without_input_file :
  main init_missing load_three one_bin no_body (fresh_state stale_disk)
  = (inl (FileNotFoundError "maya.h5"), fresh_state stale_disk).
Proof. vm_compute. reflexivity. Qed.

Lemma selection_reads_label_only_witness :
  map iffClass two_muons = map iffClass two_other_muons /\
  exists p1 n1 p2 n2 : DataFrame,
    select_prompt (pd_DataFrame two_muons) = inr p1 /\
    select_nonprompt (pd_DataFrame two_muons) = inr n1 /\
    select_prompt (pd_DataFrame two_other_muons) = inr p2 /\
    select_nonprompt (pd_DataFrame two_other_muons) = inr n2 /\
    index p1 = index p2 /\ index n1 = index n2.
Proof.
  split; [reflexivity|].
  exact (selection_reads_label_only two_muons two_other_muons eq_refl).
Defined.

Lemma histogram_error_propagates_witness :
  fst (main init_ok (load_rows nan_pt_muons) bins_reject_nan no_body
         (fresh_state stale_disk))
  = inl (ValueError "range is not finite") /\
  files (snd (main init_ok (load_rows nan_pt_muons) bins_reject_nan no_body
                (fresh_state stale_disk)))
  = files (fresh_state stale_disk).
Proof.
  apply (histogram_error_propagates init_ok (load_rows nan_pt_muons) bins_reject_nan
           no_body (fresh_state stale_disk)
           ((fun _ => take (N.to_nat 100000) nan_pt_muons) <$> the_request)
           nan_pt_muons).
  - reflexivity.
  - reflexivity.
  - vm_compute. reflexivity.
  - right. exists (one_bin_of 1). split; vm_compute; reflexivity.
Defined.

Lemma main_result_witness :
  fst (main init_ok load_three one_bin no_body (fresh_state stale_disk)) = inr tt /\
  figure (snd (main init_ok load_three one_bin no_body (fresh_state stale_disk)))
  = Some (final_axes (one_bin_of 1) (one_bin_of 2)) /\
  files (snd (main init_ok load_three one_bin no_body (fresh_state stale_disk)))
  = <["pt.png" := png_signature ++ no_body (final_axes (one_bin_of 1) (one_bin_of 2))]>
      (files (fresh_state stale_disk)) /\
  globals (snd (main init_ok load_three one_bin no_body (fresh_state stale_disk))) !! "df"
  = Some (VFrame (pd_DataFrame three_muons)).
Proof.
  apply (main_result init_ok load_three one_bin no_body (fresh_state stale_disk)
           ((fun _ => take (N.to_nat 100000) three_muons) <$> the_request)
           three_muons).
  - reflexivity.
  - reflexivity.
  - vm_compute. reflexivity.
  - vm_compute. reflexivity.
  - vm_compute. reflexivity.
Defined.


Lemma failure_before_savefig_writes_nothing_witness :
  fst ((reader_part init_ok (load_rows nan_pt_muons);; selector;;
        draw bins_reject_nan) (fresh_state stale_disk))
  = inl (ValueError "range is not finite") /\
  fst (main init_ok (load_rows nan_pt_muons) bins_reject_nan no_body
         (fresh_state stale_disk))
  = inl (ValueError "range is not finite") /\
  files (snd (main init_ok (load_rows nan_pt_muons) bins_reject_nan no_body
                (fresh_state stale_disk)))
  = files (fresh_state stale_disk).
Proof.
  assert (H : fst ((reader_part init_ok (load_rows nan_pt_muons);; selector;;
                    draw bins_reject_nan) (fresh_state stale_disk))
              = inl (ValueError "range is not finite"))
    by (vm_compute; reflexivity).
  split; [exact H|].
  exact (failure_before_savefig_writes_nothing init_ok (load_rows nan_pt_muons)
           bins_reject_nan no_body (fresh_state stale_disk) _ H).
Defined.
